(** * air2phin: the import-from rewrite rule and the command line entry point

    A shallow embedding of

    - [src/airtolphin/rules/import_from.py] (class [From], method [run]),
      which rewrites one [libcst.ImportFrom] node from the Airflow API to the
      pydolphinscheduler API, and
    - [src/airphin/cli/command.py] (function [main]), the command line
      dispatch.

    Python exceptions are values of an error type; the mutable attribute
    [self.node] of [From] is threaded explicitly through the statements of
    [run]. *)

From Stdlib Require Import String List Bool.
Import ListNotations.
Open Scope list_scope.
Open Scope string_scope.

(** ** Python exceptions *)

Inductive exn : Type :=
| AttributeError (type_name attribute : string)
| TypeError (message : string)
| ValueError (args : list string)
| OtherError (message : string).

Inductive result (A : Type) : Type :=
| Ok (a : A)
| Raise (e : exn).

Arguments Ok {A} a.
Arguments Raise {A} e.

Definition bind {A B : Type} (c : result A) (k : A -> result B) : result B :=
  match c with
  | Ok a => k a
  | Raise e => Raise e
  end.

Notation "x <- c ;; k" := (bind c (fun x => k))
  (at level 61, c at next level, right associativity).

(** ** The libcst nodes an import-from statement is made of

    Every node carries its own formatting, as in libcst; whitespace nodes
    are kept as the text they print. *)

Module cst.

Definition whitespace : Type := string.

(** [libcst.LeftParen(whitespace_after)], [libcst.RightParen(whitespace_before)]. *)
Record LeftParen : Type := mkLeftParen { lp_whitespace_after : whitespace }.
Record RightParen : Type := mkRightParen { rp_whitespace_before : whitespace }.

(** [libcst.Dot], [libcst.Comma], [libcst.Semicolon]. *)
Record Dot : Type := mkDot
  { dot_whitespace_before : whitespace; dot_whitespace_after : whitespace }.
Record Comma : Type := mkComma
  { comma_whitespace_before : whitespace; comma_whitespace_after : whitespace }.
Record Semicolon : Type := mkSemicolon
  { semi_whitespace_before : whitespace; semi_whitespace_after : whitespace }.

(** A field of type [Union[T, MaybeSentinel]]. *)
Inductive maybe (T : Type) : Type :=
| DEFAULT
| Given (t : T).
Arguments DEFAULT {T}.
Arguments Given {T} t.

(** [libcst.Name(value, lpar, rpar)]. *)
Record NameNode : Type := mkName
  { name_value : string;
    name_lpar : list LeftParen;
    name_rpar : list RightParen }.

(** The expressions that occur as module reference or imported name:
    [libcst.Name] and [libcst.Attribute(value, attr, dot, lpar, rpar)]. *)
Inductive Expr : Type :=
| EName (n : NameNode)
| EAttribute (value : Expr) (attr : NameNode) (dot : Dot)
             (lpar : list LeftParen) (rpar : list RightParen).

(** [libcst.AsName(name, whitespace_before_as, whitespace_after_as)]. *)
Record AsName : Type := mkAsName
  { as_name : NameNode;
    as_whitespace_before_as : whitespace;
    as_whitespace_after_as : whitespace }.

(** [libcst.ImportAlias(name, asname, comma)]. *)
Record ImportAlias : Type := mkImportAlias
  { ia_name : Expr;
    ia_asname : option AsName;
    ia_comma : maybe Comma }.

(** The [names] field: a sequence of aliases or [libcst.ImportStar]. *)
Inductive Names : Type :=
| Aliases (l : list ImportAlias)
| ImportStar.

(** [libcst.ImportFrom]. *)
Record ImportFrom : Type := mkImportFrom
  { module : option Expr;
    names : Names;
    relative : list Dot;
    lpar : option LeftParen;
    rpar : option RightParen;
    semicolon : maybe Semicolon;
    whitespace_after_from : whitespace;
    whitespace_before_import : whitespace;
    whitespace_after_import : whitespace }.

(** The constructors as the rule calls them, every other field at its
    default: [cst.Name("x")], [cst.Attribute(v, a)], [cst.ImportAlias(n)]. *)
Definition Name (value : string) : NameNode := mkName value [] [].

Definition Attribute (value : Expr) (attr : NameNode) : Expr :=
  EAttribute value attr (mkDot "" "") [] [].

Definition ImportAlias_ (name : NameNode) : ImportAlias :=
  mkImportAlias (EName name) None DEFAULT.

(** [node.with_changes(module=m)] and [node.with_changes(names=ns)]: a new
    node with that field replaced and all others kept. *)
Definition with_changes_module (node : ImportFrom) (m : Expr) : ImportFrom :=
  mkImportFrom (Some m) (names node) (relative node) (lpar node) (rpar node)
    (semicolon node) (whitespace_after_from node)
    (whitespace_before_import node) (whitespace_after_import node).

Definition with_changes_names (node : ImportFrom) (ns : list ImportAlias)
  : ImportFrom :=
  mkImportFrom (module node) (Aliases ns) (relative node) (lpar node)
    (rpar node) (semicolon node) (whitespace_after_from node)
    (whitespace_before_import node) (whitespace_after_import node).

(** Attribute access [e.attr]: only an [Attribute] node has the field. *)
Definition get_attr (e : Expr) : result NameNode :=
  match e with
  | EAttribute _ a _ _ _ => Ok a
  | EName _ => Raise (AttributeError "Name" "attr")
  end.

(** [e.value == s] for [e] a [Name] or an [Attribute]: the [value] of a
    [Name] is a string, the [value] of an [Attribute] is a node, which is
    equal to no string. *)
Definition value_eq (e : Expr) (s : string) : bool :=
  match e with
  | EName n => String.eqb (name_value n) s
  | EAttribute _ _ _ _ _ => false
  end.

(** [s in (s1, ..., sn)] for a string [s]. *)
Definition str_in (s : string) (l : list string) : bool :=
  existsb (String.eqb s) l.

(** [e.value in (s1, ..., sn)]. *)
Definition value_in (e : Expr) (l : list string) : bool :=
  existsb (value_eq e) l.

(** *** The code generator on these nodes *)

Definition codegen_lpars (l : list LeftParen) : string :=
  String.concat "" (map (fun p => "(" ++ lp_whitespace_after p) l).

Definition codegen_rpars (l : list RightParen) : string :=
  String.concat "" (map (fun p => rp_whitespace_before p ++ ")") l).

Definition codegen_Name (n : NameNode) : string :=
  codegen_lpars (name_lpar n) ++ name_value n ++ codegen_rpars (name_rpar n).

Definition codegen_Dot (d : Dot) : string :=
  dot_whitespace_before d ++ "." ++ dot_whitespace_after d.

Fixpoint codegen_Expr (e : Expr) : string :=
  match e with
  | EName n => codegen_Name n
  | EAttribute v a d lp rp =>
      codegen_lpars lp ++ codegen_Expr v ++ codegen_Dot d ++ codegen_Name a
        ++ codegen_rpars rp
  end.

Definition codegen_AsName (a : AsName) : string :=
  as_whitespace_before_as a ++ "as" ++ as_whitespace_after_as a
    ++ codegen_Name (as_name a).

Definition codegen_ImportAlias (a : ImportAlias) (default_comma : bool)
  : string :=
  codegen_Expr (ia_name a)
    ++ match ia_asname a with Some n => codegen_AsName n | None => "" end
    ++ match ia_comma a with
       | DEFAULT => if default_comma then ", " else ""
       | Given c => comma_whitespace_before c ++ "," ++ comma_whitespace_after c
       end.

Fixpoint codegen_aliases (l : list ImportAlias) : string :=
  match l with
  | [] => ""
  | [a] => codegen_ImportAlias a false
  | a :: rest => codegen_ImportAlias a true ++ codegen_aliases rest
  end.

Definition codegen_ImportFrom (n : ImportFrom) : string :=
  "from" ++ whitespace_after_from n
    ++ String.concat "" (map codegen_Dot (relative n))
    ++ match module n with Some m => codegen_Expr m | None => "" end
    ++ whitespace_before_import n ++ "import" ++ whitespace_after_import n
    ++ match lpar n with Some p => "(" ++ lp_whitespace_after p | None => "" end
    ++ match names n with
       | Aliases l => codegen_aliases l
       | ImportStar => "*"
       end
    ++ match rpar n with Some p => rp_whitespace_before p ++ ")" | None => "" end
    ++ match semicolon n with
       | DEFAULT => ""
       | Given s => semi_whitespace_before s ++ ";" ++ semi_whitespace_after s
       end.

End cst.

Import cst.

(** ** [airtolphin/rules/import_from.py]: class [From] *)

Module From.

(** Lines 11-59: the rewrite of the module reference.  [module] is read once
    from the node the rule was built with; every test is made on it, also
    after [self.node] has been replaced. *)
Definition run_module (node : ImportFrom) : result ImportFrom :=
  let module := cst.module node in
  match module with
  | Some (EAttribute module_value module_attr _ _ _) =>
      (* line 16 *)
      node1 <-
        (if str_in (name_value module_attr) ["bash"; "dummy_operator"; "dummy"]
         then
           a <- get_attr module_value ;;
           if String.eqb (name_value a) "operators"
           then Ok (with_changes_module node
                      (Attribute
                         (Attribute (EName (Name "pydolphinscheduler"))
                                    (Name "tasks"))
                         (Name "shell")))
           else Ok node
         else Ok node) ;;
      (* line 27 *)
      node2 <-
        (if String.eqb (name_value module_attr) "spark_sql_operator"
         then
           a <- get_attr module_value ;;
           if String.eqb (name_value a) "operators"
           then Ok (with_changes_module node1
                      (Attribute
                         (Attribute (EName (Name "pydolphinscheduler"))
                                    (Name "tasks"))
                         (Name "sql")))
           else Ok node1
         else Ok node1) ;;
      (* line 38 *)
      if String.eqb (name_value module_attr) "python_operator"
      then
        a <- get_attr module_value ;;
        if String.eqb (name_value a) "operators"
        then Ok (with_changes_module node2
                   (Attribute
                      (Attribute (EName (Name "pydolphinscheduler"))
                                 (Name "tasks"))
                      (Name "python")))
        else Ok node2
      else Ok node2
  | Some (EName n) =>
      (* line 50 *)
      if String.eqb (name_value n) "airflow"
      then Ok (with_changes_module node
                 (Attribute
                    (Attribute (EName (Name "pydolphinscheduler"))
                               (Name "core"))
                    (Name "process_definition")))
      else Ok node
  | None => Ok node
  end.

(** Lines 61-78: the body of the loop over the names, on the current
    [self.node] and one [import_alias]. *)
Definition run_alias (node : ImportFrom) (import_alias : ImportAlias)
  : ImportFrom :=
  (* line 62 *)
  let node1 :=
    if value_eq (ia_name import_alias) "DAG"
    then with_changes_names node [ImportAlias_ (Name "ProcessDefinition")]
    else node in
  (* line 67 *)
  if value_in (ia_name import_alias) ["BashOperator"; "DummyOperator"]
  then with_changes_names node1 [ImportAlias_ (Name "Shell")]
  else if value_eq (ia_name import_alias) "SparkSqlOperator"
  then with_changes_names node1 [ImportAlias_ (Name "Sql")]
  else if value_eq (ia_name import_alias) "PythonOperator"
  then with_changes_names node1 [ImportAlias_ (Name "Python")]
  else node1.

(** Line 60: [for import_alias in self.node.names].  The sequence is read
    once, before the first iteration; [ImportStar] is not iterable. *)
Definition run_names (node : ImportFrom) : result ImportFrom :=
  match names node with
  | Aliases l => Ok (fold_left run_alias l node)
  | ImportStar => Raise (TypeError "'ImportStar' object is not iterable")
  end.

(** [From(node).run()]. *)
Definition run (node : ImportFrom) : result ImportFrom :=
  node' <- run_module node ;;
  run_names node'.

End From.

(** *** Statements as libcst parses them from plainly formatted text *)

(** The dotted name [first.r1.r2...] as the parser builds it: left nested,
    no whitespace around the dots. *)
Definition dotted (first : string) (rest : list string) : Expr :=
  fold_left (fun e s => Attribute e (Name s)) rest (EName (Name first)).

(** The components of a dotted name, left to right. *)
Fixpoint chain_names (e : Expr) : list string :=
  match e with
  | EName n => [name_value n]
  | EAttribute v a _ _ _ => (chain_names v ++ [name_value a])%list
  end.

(** [a, b, c] after [import]: every alias but the last owns its comma. *)
Fixpoint plain_aliases (l : list string) : list ImportAlias :=
  match l with
  | [] => []
  | [s] => [ImportAlias_ (Name s)]
  | s :: rest =>
      mkImportAlias (EName (Name s)) None (Given (mkComma "" " "))
        :: plain_aliases rest
  end.

(** [from <m> import <ns>] on one line, single spaces, no parentheses. *)
Definition plain_from (m : Expr) (ns : Names) : ImportFrom :=
  mkImportFrom (Some m) ns [] None None DEFAULT " " " " " ".

(** The statement level formatting of [n] is that of [plain_from]. *)
Definition plain_layout (n : ImportFrom) : Prop :=
  relative n = [] /\ lpar n = None /\ rpar n = None /\ semicolon n = DEFAULT
  /\ whitespace_after_from n = " " /\ whitespace_before_import n = " "
  /\ whitespace_after_import n = " ".

(** The module references and the names the rule writes. *)
Definition tasks_shell : Expr := dotted "pydolphinscheduler" ["tasks"; "shell"].
Definition tasks_sql : Expr := dotted "pydolphinscheduler" ["tasks"; "sql"].
Definition tasks_python : Expr := dotted "pydolphinscheduler" ["tasks"; "python"].
Definition core_process_definition : Expr :=
  dotted "pydolphinscheduler" ["core"; "process_definition"].

Definition target_modules : list Expr :=
  [tasks_shell; tasks_sql; tasks_python; core_process_definition].

Definition target_names : list string :=
  ["ProcessDefinition"; "Shell"; "Sql"; "Python"].

(** The alias rule that [From.run_alias] applies to one entry, if any: the
    identifier the entry is rewritten to. *)
Definition alias_rule (import_alias : ImportAlias) : option string :=
  let dag :=
    if value_eq (ia_name import_alias) "DAG"
    then Some "ProcessDefinition" else None in
  if value_in (ia_name import_alias) ["BashOperator"; "DummyOperator"]
  then Some "Shell"
  else if value_eq (ia_name import_alias) "SparkSqlOperator" then Some "Sql"
  else if value_eq (ia_name import_alias) "PythonOperator" then Some "Python"
  else dag.

Definition alias_matches (import_alias : ImportAlias) : bool :=
  match alias_rule import_alias with Some _ => true | None => false end.

(** ** [airphin/cli/command.py]: function [main] *)

Module command.

Definition Path : Type := string.

(** The namespace [parser.parse_args(argv)] returns, by subcommand; the
    [rule] subcommand defines neither [verbose] nor [rules], and without a
    subcommand [args.subcommand] is [None]. *)
Inductive Namespace : Type :=
| args_test (verbose : bool) (rules : option Path) (diff : bool)
            (stdin : string)
| args_convert (verbose : bool) (rules : option Path) (filter : string)
               (inplace : bool) (sources : list Path)
| args_rule (show : bool)
| args_none.

(** What [main] does to the world outside, in order. *)
Inductive event : Type :=
| setLevel_DEBUG
| logger_debug (message : string)
| logger_info (message : string)
| new_Config (customs : list Path) (inplace : option bool)
| new_Runner
| runner_with_str (stdin : string)
| runner_with_files (files : list Path)
| build_in_rules_called
| print (line : string).

(** A computation that logs events and may raise. *)
Definition io (A : Type) : Type := list event -> list event * result A.

Definition ret {A : Type} (a : A) : io A := fun t => (t, Ok a).

Definition emit (ev : event) : io unit := fun t => ((t ++ [ev])%list, Ok tt).

Definition lift {A : Type} (r : result A) : io A := fun t => (t, r).

Definition io_bind {A B : Type} (c : io A) (k : A -> io B) : io B :=
  fun t =>
    match c t with
    | (t', Ok a) => k a t'
    | (t', Raise e) => (t', Raise e)
    end.

Notation "x <~ c ;; k" := (io_bind c (fun x => k))
  (at level 61, c at next level, right associativity).
Notation "c ;;; k" := (io_bind c (fun _ => k))
  (at level 61, right associativity).

Definition when (b : bool) (c : io unit) : io unit :=
  if b then c else ret tt.

Section Main.

(** The file system, as [pathlib] shows it. *)
Variable path_exists : Path -> bool.
Variable path_is_file : Path -> bool.
Variable path_glob : Path -> string -> result (list Path).

(** The collaborators [main] imports: [Config], [Runner] and the rule
    loader.  Each may raise. *)
Variable Config : Type.
Variable Runner : Type.
Variable Config_init : list Path -> option bool -> result Config.
Variable Runner_init : Config -> result Runner.
Variable with_str : Runner -> string -> result string.
Variable with_files : Runner -> list Path -> result unit.
Variable build_in_rules : result (list Path).
Variable relative_to_path_rule : Path -> result string.
Variable unified_diff : string -> string -> string.

(** Lines 162-170: the loop over [args.sources], appending to
    [convert_files]. *)
Fixpoint collect_files (filter : string) (sources : list Path)
         (convert_files : list Path) : result (list Path) :=
  match sources with
  | [] => Ok convert_files
  | path :: rest =>
      if negb (path_exists path)
      then Raise (ValueError ["Path %s does not exist."; path])
      else if path_is_file path
      then collect_files filter rest (convert_files ++ [path])%list
      else
        files <- path_glob path filter ;;
        collect_files filter rest (convert_files ++ files)%list
  end.

(** Lines 179-180. *)
Fixpoint print_rules (rules : list Path) : io unit :=
  match rules with
  | [] => ret tt
  | rule :: rest =>
      line <~ lift (relative_to_path_rule rule) ;;
      emit (print line) ;;;
      print_rules rest
  end.

(** Line 134: [hasattr(args, "verbose") and args.verbose]. *)
Definition has_verbose (args : Namespace) : bool :=
  match args with
  | args_test v _ _ _ | args_convert v _ _ _ _ => v
  | _ => false
  end.

(** Line 138: [[args.rules] if hasattr(args, "rules") and args.rules
    else []]; a [Path] is always true. *)
Definition customs_rules_of (args : Namespace) : list Path :=
  match args with
  | args_test _ (Some r) _ _ | args_convert _ (Some r) _ _ _ => [r]
  | _ => []
  end.

(** [main(argv)], from the parsed arguments on (line 134). *)
Definition main (args : Namespace) : io unit :=
  when (has_verbose args) (emit setLevel_DEBUG) ;;;
  emit (logger_debug "Finish parse airphin arguments, current args is %s.") ;;;
  let customs_rules := customs_rules_of args in
  (* line 140 *)
  match args with
  | args_test _ _ diff stdin =>
      config <~ (emit (new_Config customs_rules None) ;;;
                 lift (Config_init customs_rules None)) ;;
      runner <~ (emit new_Runner ;;; lift (Runner_init config)) ;;
      result <~ (emit (runner_with_str stdin) ;;;
                 lift (with_str runner stdin)) ;;
      emit (logger_debug ("The source input is:" ++ stdin)) ;;;
      emit (logger_info ("Converted result is: " ++ result)) ;;;
      when diff
        (emit (logger_info ("The different between source and target is: "
                              ++ unified_diff stdin result)))
  (* line 160 *)
  | args_convert _ _ filter inplace sources =>
      convert_files <~ lift (collect_files filter sources []) ;;
      config <~ (emit (new_Config customs_rules (Some inplace)) ;;;
                 lift (Config_init customs_rules (Some inplace))) ;;
      runner <~ (emit new_Runner ;;; lift (Runner_init config)) ;;
      emit (runner_with_files convert_files) ;;;
      lift (with_files runner convert_files)
  (* line 175 *)
  | args_rule show =>
      if show
      then
        rules <~ (emit build_in_rules_called ;;; lift build_in_rules) ;;
        emit (logger_info "Total rules:") ;;;
        print_rules rules
      else ret tt
  | args_none => ret tt
  end.

End Main.

(** The events of conversion work: building a [Config] or a [Runner], or
    handing text or files to a runner. *)
Definition conversion_event (ev : event) : bool :=
  match ev with
  | new_Config _ _ | new_Runner | runner_with_str _ | runner_with_files _ =>
      true
  | _ => false
  end.

(** A file system that holds the file [dag.py] and nothing else. *)
Definition only_dag_py (p : Path) : bool := String.eqb p "dag.py".

End command.

(** ** Shapes of module references and positions in a list of names *)

(** The last components the module rules look for (lines 16, 27, 38) and
    the names the alias rules look for (lines 62, 67, 71, 75). *)
Definition source_modules : list string :=
  ["bash"; "dummy_operator"; "dummy"; "spark_sql_operator"; "python_operator"].

Definition source_names : list string :=
  ["DAG"; "BashOperator"; "DummyOperator"; "SparkSqlOperator";
   "PythonOperator"].

(** A module reference [p.x] of two components with [x] one of the last
    components the rules look for: its prefix is a [Name]. *)
Definition name_prefix_trap (node : ImportFrom) : bool :=
  match module node with
  | Some (EAttribute (EName _) a _ _ _) => str_in (name_value a) source_modules
  | _ => false
  end.

(** A module reference one of the four module rules fires on. *)
Definition module_matches (node : ImportFrom) : bool :=
  match module node with
  | Some (EAttribute (EAttribute _ a' _ _ _) a _ _ _) =>
      String.eqb (name_value a') "operators"
      && str_in (name_value a) source_modules
  | Some (EName n) => String.eqb (name_value n) "airflow"
  | _ => false
  end.

(** The rule of the last matching entry of a list of names, if any. *)
Definition last_rule (l : list ImportAlias) : option string :=
  fold_left (fun acc a => match alias_rule a with
                          | Some t => Some t
                          | None => acc
                          end) l None.

(** The node after an alias rule, or after none. *)
Definition apply_rule (o : option string) (node : ImportFrom) : ImportFrom :=
  match o with
  | Some t => with_changes_names node [ImportAlias_ (Name t)]
  | None => node
  end.

(** The two phases of [run] the other way round: names first, module
    reference second. *)
Definition names_then_module (node : ImportFrom) : result ImportFrom :=
  node' <- From.run_names node ;;
  From.run_module node'.

(** ** Reading a trace of [main] *)

Definition conversion_events (trace : list command.event)
  : list command.event :=
  filter command.conversion_event trace.

(** The lines written to standard output. *)
Definition printed (trace : list command.event) : list string :=
  flat_map (fun ev => match ev with
                      | command.print line => [line]
                      | _ => []
                      end) trace.

(** The number of records logged at level INFO. *)
Definition info_records (trace : list command.event) : nat :=
  length (filter (fun ev => match ev with
                            | command.logger_info _ => true
                            | _ => false
                            end) trace).

(** A computation that only adds events to the trace it is given, the
    same ones whatever the trace. *)
Definition appends {A : Type} (c : command.io A) : Prop :=
  forall t, c t = ((t ++ fst (c []))%list, snd (c [])).

(** The files the loop of [main] collects for one source, given the
    matches [glob_of] of each directory. *)
Definition files_of_source (path_is_file : command.Path -> bool)
           (glob_of : command.Path -> list command.Path)
           (path : command.Path) : list command.Path :=
  if path_is_file path then [path] else glob_of path.

(** A file system with the file [dag.py] and the directory [dags], in
    which a glob finds [dags/a.py] and [dags/b.py]. *)
Definition demo_exists (p : command.Path) : bool :=
  str_in p ["dag.py"; "dags"].

Definition demo_glob_of (p : command.Path) : list command.Path :=
  if String.eqb p "dags" then ["dags/a.py"; "dags/b.py"] else [].

Definition demo_glob (p : command.Path) (pattern : string)
  : result (list command.Path) :=
  Ok (demo_glob_of p).

(** Case analysis on every test [run_module] makes. *)
Ltac split_module_tests :=
  repeat match goal with
         | |- context [String.eqb ?x ?y] =>
             lazymatch x with
             | name_value _ => destruct (String.eqb x y) eqn:?
             end
         | |- context [get_attr ?v] => destruct v; simpl
         end.

(** * Properties of the import-from rule *)

(** ** The two phases of [run] *)

Lemma with_changes_names_twice (node : ImportFrom) (l1 l2 : list ImportAlias) :
  with_changes_names (with_changes_names node l1) l2
  = with_changes_names node l2.
Proof. reflexivity. Qed.

Lemma with_changes_module_names (node : ImportFrom) (m : Expr)
      (l : list ImportAlias) :
  with_changes_module (with_changes_names node l) m
  = with_changes_names (with_changes_module node m) l.
Proof. reflexivity. Qed.

(** One entry fires at most one alias rule, the one [alias_rule] names. *)
Lemma run_alias_rule (node : ImportFrom) (a : ImportAlias) :
  From.run_alias node a
  = match alias_rule a with
    | Some t => with_changes_names node [ImportAlias_ (Name t)]
    | None => node
    end.
Proof.
  unfold From.run_alias, alias_rule, value_in.
  destruct (ia_name a) as [n | v at' d lp rp]; simpl; [ | reflexivity ].
  destruct (String.eqb_spec (name_value n) "DAG") as [E | _].
  - rewrite E. reflexivity.
  - destruct (name_value n =? "BashOperator"),
             (name_value n =? "DummyOperator"),
             (name_value n =? "SparkSqlOperator"),
             (name_value n =? "PythonOperator"); reflexivity.
Qed.

(** The names the rule writes match no alias rule. *)
Lemma alias_rule_target (t : string) :
  In t target_names -> alias_rule (ImportAlias_ (Name t)) = None.
Proof.
  unfold target_names. simpl.
  intros [E | [E | [E | [E | []]]]]; subst t; reflexivity.
Qed.

(** The loop leaves a node alone when no entry matches. *)
Lemma fold_run_alias_no_match (l : list ImportAlias) (node : ImportFrom) :
  (forall b, In b l -> alias_rule b = None) ->
  fold_left From.run_alias l node = node.
Proof.
  revert node. induction l as [ | a l IH]; intros node H; simpl.
  - reflexivity.
  - rewrite run_alias_rule, (H a (or_introl eq_refl)).
    apply IH. intros b Hb. apply H. right. exact Hb.
Qed.

(** The loop ends on the rewrite of the last matching entry, whatever came
    before it. *)
Lemma fold_run_alias_last_match (l1 l2 : list ImportAlias) (a : ImportAlias)
      (t : string) (node : ImportFrom) :
  alias_rule a = Some t ->
  (forall b, In b l2 -> alias_rule b = None) ->
  fold_left From.run_alias (l1 ++ a :: l2)%list node
  = with_changes_names node [ImportAlias_ (Name t)].
Proof.
  intros Ha H2. rewrite fold_left_app. simpl.
  rewrite run_alias_rule, Ha, (fold_run_alias_no_match l2 _ H2).
  clear Ha H2. revert node.
  induction l1 as [ | b l1 IH]; intros node; simpl.
  - reflexivity.
  - rewrite IH, run_alias_rule. destruct (alias_rule b); reflexivity.
Qed.

(** A list with a matching entry splits at its last matching entry. *)
Lemma last_match_split (l : list ImportAlias) :
  existsb alias_matches l = true ->
  exists l1 a l2 t,
    l = (l1 ++ a :: l2)%list /\ alias_rule a = Some t
    /\ forall b, In b l2 -> alias_rule b = None.
Proof.
  induction l as [ | x l IH]; simpl; intros H.
  - discriminate.
  - destruct (existsb alias_matches l) eqn:El.
    + destruct (IH eq_refl) as (l1 & a & l2 & t & -> & Ha & H2).
      exists (x :: l1), a, l2, t. auto.
    + rewrite orb_false_r in H. unfold alias_matches in H.
      destruct (alias_rule x) as [t | ] eqn:Ex; [ | discriminate ].
      exists [], x, l, t. repeat split; auto.
      intros b Hb.
      assert (Hm : alias_matches b = false).
      { destruct (alias_matches b) eqn:Eb; [ | reflexivity ].
        assert (existsb alias_matches l = true)
          by (apply existsb_exists; exists b; auto).
        congruence. }
      unfold alias_matches in Hm. destruct (alias_rule b); congruence.
Qed.

(** The loop's result, in full: the node itself or the node with one
    rewritten name. *)
Lemma fold_run_alias_cases (l : list ImportAlias) (node : ImportFrom) :
  (fold_left From.run_alias l node = node
   /\ forall b, In b l -> alias_rule b = None)
  \/ exists t, In t target_names
       /\ fold_left From.run_alias l node
          = with_changes_names node [ImportAlias_ (Name t)].
Proof.
  destruct (existsb alias_matches l) eqn:E.
  - right. destruct (last_match_split l E) as (l1 & a & l2 & t & -> & Ha & H2).
    exists t. split.
    + revert Ha. unfold alias_rule, target_names.
      repeat match goal with
             | |- context [if ?c then _ else _] => destruct c
             end; intros Ht; inversion Ht; simpl; auto.
    + apply fold_run_alias_last_match; assumption.
  - assert (H : forall b, In b l -> alias_rule b = None).
    { intros b Hb. destruct (alias_rule b) as [t | ] eqn:Eb; [ | reflexivity ].
      assert (existsb alias_matches l = true).
      { apply existsb_exists. exists b. split; [ exact Hb | ].
        unfold alias_matches. rewrite Eb. reflexivity. }
      congruence. }
    left. split; [ apply fold_run_alias_no_match | ]; assumption.
Qed.

(** The module phase reads the module reference only: changing the names
    first or afterwards is the same. *)
Lemma run_module_with_changes_names (node : ImportFrom)
      (l : list ImportAlias) :
  From.run_module (with_changes_names node l)
  = (node' <- From.run_module node ;; Ok (with_changes_names node' l)).
Proof.
  unfold From.run_module, value_in. simpl.
  destruct (module node) as [[n | v a d lp rp] | ]; simpl;
    split_module_tests; reflexivity.
Qed.

(** The module phase returns the node itself or the node with one of the
    four target module references. *)
Lemma run_module_cases (node node1 : ImportFrom) :
  From.run_module node = Ok node1 ->
  node1 = node
  \/ exists t, In t target_modules /\ node1 = with_changes_module node t.
Proof.
  unfold From.run_module, value_in, target_modules.
  destruct (module node) as [[n | v a d lp rp] | ]; simpl;
    split_module_tests; simpl; intros H; inversion H;
      try (left; reflexivity);
      try (right; eexists; split; [ | reflexivity ]; simpl; tauto);
      try discriminate.
  all: exfalso;
    repeat match goal with
           | H : String.eqb _ _ = true |- _ => apply String.eqb_eq in H
           end; congruence.
Qed.

(** None of the four target module references matches a module rule. *)
Lemma run_module_target (node : ImportFrom) (t : Expr) :
  In t target_modules ->
  From.run_module (with_changes_module node t)
  = Ok (with_changes_module node t).
Proof.
  unfold target_modules. simpl.
  intros [E | [E | [E | [E | []]]]]; subst t; reflexivity.
Qed.

Lemma run_module_idempotent (node node1 : ImportFrom) :
  From.run_module node = Ok node1 -> From.run_module node1 = Ok node1.
Proof.
  intros H. destruct (run_module_cases _ _ H) as [-> | (t & Ht & ->)].
  - exact H.
  - apply run_module_target. exact Ht.
Qed.

Lemma run_module_names (node node1 : ImportFrom) :
  From.run_module node = Ok node1 -> names node1 = names node.
Proof.
  intros H. destruct (run_module_cases _ _ H) as [-> | (t & _ & ->)];
    reflexivity.
Qed.

(** ** Reading a dotted name off a node *)

Lemma chain_names_not_nil (e : Expr) : chain_names e <> [].
Proof.
  destruct e as [n | v a d lp rp]; simpl; [ discriminate | ].
  intros H. apply app_eq_nil in H. destruct H as [_ H]. discriminate.
Qed.

Lemma chain_names_one (e : Expr) (x : string) :
  chain_names e = [x] -> exists n, e = EName n /\ name_value n = x.
Proof.
  destruct e as [n | v a d lp rp]; simpl; intros H.
  - exists n. split; [ reflexivity | congruence ].
  - apply (app_inj_tail (chain_names v) []) in H. destruct H as [H _].
    destruct (chain_names_not_nil v H).
Qed.

Lemma chain_names_three (e : Expr) (p o x : string) :
  chain_names e = [p; o; x] ->
  exists v' a' d' lp' rp' a d lp rp,
    e = EAttribute (EAttribute v' a' d' lp' rp') a d lp rp
    /\ name_value a' = o /\ name_value a = x.
Proof.
  destruct e as [n | v a d lp rp]; simpl; intros H; [ discriminate | ].
  apply (app_inj_tail (chain_names v) [p; o]) in H. destruct H as [Hv Ha].
  destruct v as [n | v' a' d' lp' rp']; simpl in Hv; [ discriminate | ].
  apply (app_inj_tail (chain_names v') [p]) in Hv. destruct Hv as [_ Ha'].
  exists v', a', d', lp', rp', a, d, lp, rp. auto.
Qed.

Lemma alias_rule_of_name (a : ImportAlias) (y : string) :
  chain_names (ia_name a) = [y] ->
  alias_rule a = alias_rule (ImportAlias_ (Name y)).
Proof.
  intros H. destruct (chain_names_one _ _ H) as (n & E & <-).
  unfold alias_rule. rewrite E. reflexivity.
Qed.

(** ** The examples of the specification *)

(** C1. For a statement whose module is [airflow.operators.bash],
    [airflow.operators.dummy_operator] or [airflow.operators.dummy] and
    whose one imported name is [BashOperator] or [DummyOperator], [run]
    returns the statement with the module replaced by
    [pydolphinscheduler.tasks.shell] and the names by the single name
    [Shell]: both rewrites fire.  Plainly formatted, the result reads
    [from pydolphinscheduler.tasks.shell import Shell]. *)
Theorem From_run_operators_to_shell
        (node : ImportFrom) (m : Expr) (a : ImportAlias) (x y : string) :
  module node = Some m ->
  chain_names m = ["airflow"; "operators"; x] ->
  In x ["bash"; "dummy_operator"; "dummy"] ->
  names node = Aliases [a] ->
  chain_names (ia_name a) = [y] ->
  In y ["BashOperator"; "DummyOperator"] ->
  let out := with_changes_names (with_changes_module node tasks_shell)
               [ImportAlias_ (Name "Shell")] in
  From.run node = Ok out
  /\ (plain_layout node ->
      codegen_ImportFrom out
      = "from pydolphinscheduler.tasks.shell import Shell").
Proof.
  intros Hm Hc Hx Hn Ha Hy out. split.
  - destruct (chain_names_three _ _ _ _ Hc)
      as (v' & a' & d' & lp' & rp' & at' & d & lp & rp & -> & Ho & Hat).
    assert (Hmod : From.run_module node
                   = Ok (with_changes_module node tasks_shell)).
    { unfold From.run_module. rewrite Hm. simpl.
      rewrite Ho, Hat. clear Hm Ho Hat.
      simpl in Hx. destruct Hx as [<- | [<- | [<- | []]]]; reflexivity. }
    unfold From.run. rewrite Hmod. simpl.
    unfold From.run_names. simpl. rewrite Hn. simpl.
    rewrite run_alias_rule, (alias_rule_of_name _ _ Ha).
    simpl in Hy. destruct Hy as [<- | [<- | []]]; reflexivity.
  - unfold plain_layout, out, codegen_ImportFrom. simpl.
    intros (-> & -> & -> & -> & -> & -> & ->). reflexivity.
Qed.

Lemma From_run_operators_to_shell_witness :
  From.run (plain_from (dotted "airflow" ["operators"; "dummy_operator"])
                        (Aliases (plain_aliases ["DummyOperator"])))
  = Ok (plain_from tasks_shell (Aliases (plain_aliases ["Shell"])))
  /\ codegen_ImportFrom
       (plain_from tasks_shell (Aliases (plain_aliases ["Shell"])))
     = "from pydolphinscheduler.tasks.shell import Shell".
Proof.
  destruct (From_run_operators_to_shell
              (plain_from (dotted "airflow" ["operators"; "dummy_operator"])
                          (Aliases (plain_aliases ["DummyOperator"])))
              (dotted "airflow" ["operators"; "dummy_operator"])
              (ImportAlias_ (Name "DummyOperator"))
              "dummy_operator" "DummyOperator"
              eq_refl eq_refl (or_intror (or_introl eq_refl)) eq_refl eq_refl
              (or_intror (or_introl eq_refl))) as [Hrun Htext].
  split.
  - exact Hrun.
  - apply Htext. unfold plain_layout. simpl. repeat split.
Defined.

(** C5. For [from airflow import DAG] (module the bare name [airflow], one
    imported name [DAG]) [run] returns the statement with the module
    replaced by [pydolphinscheduler.core.process_definition] and the names
    by the single name [ProcessDefinition]; plainly formatted, the result
    reads [from pydolphinscheduler.core.process_definition import
    ProcessDefinition]. *)
Theorem From_run_airflow_DAG
        (node : ImportFrom) (m : Expr) (a : ImportAlias) :
  module node = Some m ->
  chain_names m = ["airflow"] ->
  names node = Aliases [a] ->
  chain_names (ia_name a) = ["DAG"] ->
  let out := with_changes_names
               (with_changes_module node core_process_definition)
               [ImportAlias_ (Name "ProcessDefinition")] in
  From.run node = Ok out
  /\ (plain_layout node ->
      codegen_ImportFrom out
      = "from pydolphinscheduler.core.process_definition import ProcessDefinition").
Proof.
  intros Hm Hc Hn Ha out. split.
  - destruct (chain_names_one _ _ Hc) as (n & -> & Hv).
    unfold From.run, From.run_module. rewrite Hm, Hv. simpl.
    unfold From.run_names. simpl. rewrite Hn. simpl.
    rewrite run_alias_rule, (alias_rule_of_name _ _ Ha). reflexivity.
  - unfold plain_layout, out, codegen_ImportFrom. simpl.
    intros (-> & -> & -> & -> & -> & -> & ->). reflexivity.
Qed.

Lemma From_run_airflow_DAG_witness :
  codegen_ImportFrom
    (plain_from (dotted "airflow" []) (Aliases (plain_aliases ["DAG"])))
  = "from airflow import DAG"
  /\ From.run
       (plain_from (dotted "airflow" []) (Aliases (plain_aliases ["DAG"])))
     = Ok (plain_from core_process_definition
                      (Aliases (plain_aliases ["ProcessDefinition"])))
  /\ codegen_ImportFrom
       (plain_from core_process_definition
                   (Aliases (plain_aliases ["ProcessDefinition"])))
     = "from pydolphinscheduler.core.process_definition import ProcessDefinition".
Proof.
  split; [ reflexivity | ].
  destruct (From_run_airflow_DAG
              (plain_from (dotted "airflow" [])
                          (Aliases (plain_aliases ["DAG"])))
              (dotted "airflow" []) (ImportAlias_ (Name "DAG"))
              eq_refl eq_refl eq_refl eq_refl) as [Hrun Htext].
  split.
  - exact Hrun.
  - apply Htext. unfold plain_layout. simpl. repeat split.
Defined.

(** C6. For [from os import path] neither the module nor the name matches
    a rule, and [run] returns the node it was given. *)
Theorem From_run_os_path (node : ImportFrom) (m : Expr) (a : ImportAlias) :
  module node = Some m ->
  chain_names m = ["os"] ->
  names node = Aliases [a] ->
  chain_names (ia_name a) = ["path"] ->
  From.run node = Ok node.
Proof.
  intros Hm Hc Hn Ha.
  destruct (chain_names_one _ _ Hc) as (n & -> & Hv).
  unfold From.run, From.run_module. rewrite Hm, Hv. simpl.
  unfold From.run_names. rewrite Hn. simpl.
  rewrite run_alias_rule, (alias_rule_of_name _ _ Ha). reflexivity.
Qed.

Lemma From_run_os_path_witness :
  codegen_ImportFrom
    (plain_from (dotted "os" []) (Aliases (plain_aliases ["path"])))
  = "from os import path"
  /\ From.run
       (plain_from (dotted "os" []) (Aliases (plain_aliases ["path"])))
     = Ok (plain_from (dotted "os" []) (Aliases (plain_aliases ["path"]))).
Proof.
  split; [ reflexivity | ].
  apply (From_run_os_path _ (dotted "os" []) (ImportAlias_ (Name "path")));
    reflexivity.
Defined.

(** ** Statements with several names *)

(** C2. [from airflow import DAG, settings]: the entry [settings] matches
    no alias rule, yet it is not in the output, which reads
    [from pydolphinscheduler.core.process_definition import
    ProcessDefinition]: the match on [DAG] has replaced the whole [names]
    sequence. *)
Theorem From_run_drops_unmatched_names :
  let node := plain_from (dotted "airflow" [])
                         (Aliases (plain_aliases ["DAG"; "settings"])) in
  let out := plain_from core_process_definition
                        (Aliases (plain_aliases ["ProcessDefinition"])) in
  codegen_ImportFrom node = "from airflow import DAG, settings"
  /\ alias_rule (ImportAlias_ (Name "settings")) = None
  /\ From.run node = Ok out
  /\ codegen_ImportFrom out
     = "from pydolphinscheduler.core.process_definition import ProcessDefinition"
  /\ forall l, names out = Aliases l ->
               ~ In (ImportAlias_ (Name "settings")) l.
Proof.
  cbv zeta. repeat split; try reflexivity.
  intros l Hl. inversion Hl; subst l. simpl.
  intros [H | []]. discriminate.
Qed.

(** C10. When at least one entry of two or more matches an alias rule, the
    output's [names] is exactly the one-element rewrite of the last
    matching entry, on whatever node the module phase returned; no original
    entry is in it, unless it is itself spelled as the rewritten name. *)
Theorem From_run_keeps_last_match_only
        (node : ImportFrom) (l : list ImportAlias) :
  names node = Aliases l ->
  2 <= length l ->
  existsb alias_matches l = true ->
  exists l1 a l2 t,
    l = (l1 ++ a :: l2)%list
    /\ alias_rule a = Some t
    /\ (forall b, In b l2 -> alias_rule b = None)
    /\ From.run node
       = (node1 <- From.run_module node ;;
          Ok (with_changes_names node1 [ImportAlias_ (Name t)]))
    /\ (forall r, From.run node = Ok r ->
                  names r = Aliases [ImportAlias_ (Name t)])
    /\ forall b, In b l -> chain_names (ia_name b) <> [t] ->
                 ~ In b [ImportAlias_ (Name t)].
Proof.
  intros Hn _ Hex.
  destruct (last_match_split l Hex) as (l1 & a & l2 & t & -> & Ha & H2).
  assert (Hrun : From.run node
                 = (node1 <- From.run_module node ;;
                    Ok (with_changes_names node1 [ImportAlias_ (Name t)]))).
  { unfold From.run. destruct (From.run_module node) as [node1 | e] eqn:Hm;
      simpl; [ | reflexivity ].
    unfold From.run_names. rewrite (run_module_names _ _ Hm), Hn.
    rewrite (fold_run_alias_last_match l1 l2 a t node1 Ha H2). reflexivity. }
  exists l1, a, l2, t. repeat split; try assumption.
  - intros r Hr. rewrite Hrun in Hr.
    destruct (From.run_module node) as [node1 | e]; simpl in Hr;
      inversion Hr. reflexivity.
  - intros b _ Hb [E | []]. apply Hb. subst b. reflexivity.
Qed.

Lemma From_run_keeps_last_match_only_witness :
  From.run
    (plain_from (dotted "airflow" ["operators"])
       (Aliases (plain_aliases ["BashOperator"; "PythonOperator"; "Other"])))
  = Ok (plain_from (dotted "airflow" ["operators"])
          (Aliases (plain_aliases ["Python"]))).
Proof.
  destruct (From_run_keeps_last_match_only
              (plain_from (dotted "airflow" ["operators"])
                 (Aliases
                    (plain_aliases ["BashOperator"; "PythonOperator"; "Other"])))
              (plain_aliases ["BashOperator"; "PythonOperator"; "Other"])
              eq_refl (le_S 2 2 (le_n 2)) eq_refl)
    as (l1 & a & l2 & t & Hl & Ha & H2 & Hrun & _ & _).
  rewrite Hrun. simpl.
  destruct l1 as [ | b1 [ | b2 [ | b3 l1]]]; simpl in Hl.
  - inversion Hl; subst. discriminate (H2 _ (or_introl eq_refl)).
  - inversion Hl; subst. simpl in Ha. inversion Ha. reflexivity.
  - inversion Hl; subst. discriminate Ha.
  - inversion Hl. destruct l1; discriminate.
Defined.

(** C9. When an alias rule fires on an entry, [names] becomes one alias made
    of the new name alone: no [as] part and no comma of its own, whatever
    the entry carried.  So [from airflow import DAG as workflow] becomes
    [from pydolphinscheduler.core.process_definition import
    ProcessDefinition]. *)
Theorem From_run_alias_drops_asname :
  (forall (node : ImportFrom) (a : ImportAlias),
      value_in (ia_name a)
        ["DAG"; "BashOperator"; "DummyOperator"; "SparkSqlOperator";
         "PythonOperator"] = true ->
      exists t,
        In t target_names
        /\ From.run_alias node a
           = with_changes_names node
               [mkImportAlias (EName (Name t)) None DEFAULT])
  /\ From.run
       (plain_from (dotted "airflow" [])
          (Aliases [mkImportAlias (EName (Name "DAG"))
                      (Some (mkAsName (Name "workflow") " " " ")) DEFAULT]))
     = Ok (plain_from core_process_definition
             (Aliases [mkImportAlias (EName (Name "ProcessDefinition"))
                         None DEFAULT])).
Proof.
  split; [ | reflexivity ]. intros node a H.
  rewrite run_alias_rule. unfold alias_rule, value_in, target_names in *.
  destruct (ia_name a) as [n | v at' d lp rp]; simpl in *; [ | discriminate ].
  destruct (name_value n =? "BashOperator"),
           (name_value n =? "DummyOperator"),
           (name_value n =? "SparkSqlOperator"),
           (name_value n =? "PythonOperator"),
           (name_value n =? "DAG");
    simpl in *; try discriminate; eexists; (split; [ | reflexivity ]);
      simpl; tauto.
Qed.

Lemma From_run_alias_drops_asname_witness :
  codegen_ImportFrom
    (plain_from (dotted "airflow" [])
       (Aliases [mkImportAlias (EName (Name "DAG"))
                   (Some (mkAsName (Name "workflow") " " " ")) DEFAULT]))
  = "from airflow import DAG as workflow"
  /\ exists t,
      In t target_names
      /\ From.run_alias
           (plain_from (dotted "airflow" [])
              (Aliases [mkImportAlias (EName (Name "DAG"))
                          (Some (mkAsName (Name "workflow") " " " ")) DEFAULT]))
           (mkImportAlias (EName (Name "DAG"))
              (Some (mkAsName (Name "workflow") " " " ")) DEFAULT)
         = with_changes_names
             (plain_from (dotted "airflow" [])
                (Aliases [mkImportAlias (EName (Name "DAG"))
                            (Some (mkAsName (Name "workflow") " " " "))
                            DEFAULT]))
             [mkImportAlias (EName (Name t)) None DEFAULT].
Proof.
  split; [ reflexivity | ].
  exact (proj1 From_run_alias_drops_asname
                (plain_from (dotted "airflow" [])
                   (Aliases [mkImportAlias (EName (Name "DAG"))
                               (Some (mkAsName (Name "workflow") " " " "))
                               DEFAULT]))
                (mkImportAlias (EName (Name "DAG"))
                   (Some (mkAsName (Name "workflow") " " " ")) DEFAULT)
                eq_refl).
Defined.

(** ** Module references the rule does not expect *)

(** A two-component module reference whose last component is one of the
    five the rule looks for: the test on [module.value.attr] reads a field
    a [Name] does not have. *)
Lemma run_module_name_prefix_raises
      (node : ImportFrom) (p a : NameNode) (d : Dot)
      (lp : list LeftParen) (rp : list RightParen) :
  module node = Some (EAttribute (EName p) a d lp rp) ->
  In (name_value a)
     ["bash"; "dummy"; "dummy_operator"; "spark_sql_operator";
      "python_operator"] ->
  From.run node = Raise (AttributeError "Name" "attr").
Proof.
  intros Hm Ha. unfold From.run, From.run_module. rewrite Hm. simpl.
  simpl in Ha.
  destruct Ha as [<- | [<- | [<- | [<- | [<- | []]]]]]; reflexivity.
Qed.

(** C3. [from x.bash import y] matches no module pattern (the prefix of
    [bash] is the bare name [x], not an attribute ending in [operators]),
    and [run] does not return it unchanged: it raises [AttributeError]. *)
Theorem From_run_name_prefix_raises :
  let node := plain_from (dotted "x" ["bash"]) (Aliases (plain_aliases ["y"])) in
  codegen_ImportFrom node = "from x.bash import y"
  /\ From.run node = Raise (AttributeError "Name" "attr")
  /\ From.run node <> Ok node.
Proof.
  cbv zeta. repeat split. discriminate.
Qed.

(** C8. [run] is a function of the node, and what it returns is an
    [ImportFrom]; but it does not return on every well-formed node: it
    raises on [from x.bash import y] and on [from airflow import *]. *)
Theorem From_run_not_total :
  (forall n1 n2 : ImportFrom, n1 = n2 -> From.run n1 = From.run n2)
  /\ codegen_ImportFrom
       (plain_from (dotted "x" ["bash"]) (Aliases (plain_aliases ["y"])))
     = "from x.bash import y"
  /\ From.run
       (plain_from (dotted "x" ["bash"]) (Aliases (plain_aliases ["y"])))
     = Raise (AttributeError "Name" "attr")
  /\ codegen_ImportFrom (plain_from (dotted "airflow" []) ImportStar)
     = "from airflow import *"
  /\ From.run (plain_from (dotted "airflow" []) ImportStar)
     = Raise (TypeError "'ImportStar' object is not iterable").
Proof.
  repeat split. intros n1 n2 ->. reflexivity.
Qed.

(** ** Idempotence *)

(** C4. Running the rule on its own output changes nothing: if [run]
    returns [r] on [node], it returns [r] on [r].  The reason is that none
    of the four module references the rule writes matches a module rule,
    and none of the four names it writes matches an alias rule. *)
Theorem From_run_idempotent :
  (forall node r : ImportFrom,
      From.run node = Ok r -> From.run r = Ok r)
  /\ (forall (node : ImportFrom) (t : Expr),
         In t target_modules ->
         From.run_module (with_changes_module node t)
         = Ok (with_changes_module node t))
  /\ (forall (node : ImportFrom) (t : string),
         In t target_names ->
         From.run_alias node (ImportAlias_ (Name t)) = node).
Proof.
  split; [ | split ].
  - intros node r. unfold From.run.
    destruct (From.run_module node) as [node1 | e] eqn:Hm; simpl;
      [ | discriminate ].
    unfold From.run_names at 1. rewrite (run_module_names _ _ Hm).
    destruct (names node) as [l | ] eqn:Hn; [ | discriminate ].
    intros H. inversion H as [Hr]. clear H.
    pose proof (run_module_idempotent _ _ Hm) as Hm1.
    destruct (fold_run_alias_cases l node1) as [[E Hno] | (t & Ht & E)];
      rewrite E.
    + rewrite Hm1. simpl. unfold From.run_names.
      rewrite (run_module_names _ _ Hm), Hn, E. reflexivity.
    + rewrite run_module_with_changes_names, Hm1. simpl.
      unfold From.run_names. simpl.
      rewrite run_alias_rule, (alias_rule_target t Ht). reflexivity.
  - intros node t Ht. apply run_module_target. exact Ht.
  - intros node t Ht. rewrite run_alias_rule, (alias_rule_target t Ht).
    reflexivity.
Qed.

Lemma From_run_idempotent_witness :
  From.run (plain_from tasks_shell (Aliases (plain_aliases ["Shell"])))
  = Ok (plain_from tasks_shell (Aliases (plain_aliases ["Shell"]))).
Proof.
  apply (proj1 From_run_idempotent
           (plain_from (dotted "airflow" ["operators"; "bash"])
              (Aliases (plain_aliases ["BashOperator"; "Other"])))).
  reflexivity.
Defined.

(** * Properties of the command line entry point *)

Import command.

Section Convert.

Variable path_exists : Path -> bool.
Variable path_is_file : Path -> bool.
Variable path_glob : Path -> string -> result (list Path).
Variable Config : Type.
Variable Runner : Type.
Variable Config_init : list Path -> option bool -> result Config.
Variable Runner_init : Config -> result Runner.
Variable with_str : Runner -> string -> result string.
Variable with_files : Runner -> list Path -> result unit.
Variable build_in_rules : result (list Path).
Variable relative_to_path_rule : Path -> result string.
Variable unified_diff : string -> string -> string.

(** The loop over the sources raises as soon as one source is missing,
    whatever it has collected so far; an earlier directory whose glob
    raises stops it sooner. *)
Lemma collect_files_missing (filter : string) (sources : list Path) :
  (exists p, In p sources /\ path_exists p = false) ->
  forall convert_files,
  exists e,
    collect_files path_exists path_is_file path_glob filter sources
      convert_files
    = Raise e.
Proof.
  induction sources as [ | path rest IH]; intros (p & Hin & Hp) acc.
  - destruct Hin.
  - simpl. destruct (path_exists path) eqn:Epath; simpl.
    + assert (Hrest : exists q, In q rest /\ path_exists q = false).
      { destruct Hin as [-> | Hin]; [ congruence | ]. exists p. auto. }
      destruct (path_is_file path).
      * apply IH. exact Hrest.
      * destruct (path_glob path filter) as [files | e]; simpl.
        -- apply IH. exact Hrest.
        -- exists e. reflexivity.
    + eexists. reflexivity.
Qed.

(** When the glob of no directory raises, the error is the [ValueError]
    of the first missing source. *)
Lemma collect_files_first_missing (filter : string)
      (before after : list Path) (p : Path) :
  (forall q, In q before -> path_exists q = true) ->
  (forall q, In q before -> path_is_file q = false ->
             exists files, path_glob q filter = Ok files) ->
  path_exists p = false ->
  forall convert_files,
    collect_files path_exists path_is_file path_glob filter
      (before ++ p :: after)%list convert_files
    = Raise (ValueError ["Path %s does not exist."; p]).
Proof.
  intros Hex Hglob Hp.
  induction before as [ | q before IH]; intros acc; simpl.
  - rewrite Hp. reflexivity.
  - rewrite (Hex q (or_introl eq_refl)). simpl.
    assert (IH' : forall acc',
               collect_files path_exists path_is_file path_glob filter
                 (before ++ p :: after)%list acc'
               = Raise (ValueError ["Path %s does not exist."; p])).
    { apply IH; intros; [ apply Hex | apply Hglob ]; simpl; auto. }
    destruct (path_is_file q) eqn:Ef.
    + apply IH'.
    + destruct (Hglob q (or_introl eq_refl) Ef) as (files & ->). simpl.
      apply IH'.
Qed.

(** C7. In the [convert] subcommand, if a source path does not exist,
    [main] raises, and it has by then built neither a [Config] nor a
    [Runner] and handed no file to a runner, also when other sources
    exist. *)
Theorem main_convert_missing_source
        (verbose : bool) (rules : option Path) (filter : string)
        (inplace : bool) (sources : list Path) :
  (exists p, In p sources /\ path_exists p = false) ->
  exists trace e,
    main path_exists path_is_file path_glob Config Runner Config_init
         Runner_init with_str with_files build_in_rules
         relative_to_path_rule unified_diff
         (args_convert verbose rules filter inplace sources) []
    = (trace, Raise e)
    /\ existsb conversion_event trace = false.
Proof.
  intros Hmiss.
  destruct (collect_files_missing filter sources Hmiss []) as (e & He).
  unfold main.
  exists (if verbose
          then [setLevel_DEBUG;
                logger_debug
                  "Finish parse airphin arguments, current args is %s."]
          else [logger_debug
                  "Finish parse airphin arguments, current args is %s."]).
  exists e. split.
  - unfold io_bind, when, emit, lift, ret. simpl.
    destruct verbose; simpl; rewrite He; reflexivity.
  - destruct verbose; reflexivity.
Qed.

End Convert.

Lemma main_convert_missing_source_witness :
  exists trace e,
    main only_dag_py only_dag_py (fun _ _ => Ok []) unit unit
         (fun _ _ => Ok tt) (fun _ => Ok tt) (fun _ s => Ok s)
         (fun _ _ => Ok tt) (Ok []) (fun p => Ok p) (fun _ t => t)
         (args_convert false None "**/*.py" false ["dag.py"; "missing.py"]) []
    = (trace, Raise e)
    /\ existsb conversion_event trace = false.
Proof.
  apply (main_convert_missing_source only_dag_py only_dag_py
           (fun _ _ => Ok []) unit unit (fun _ _ => Ok tt) (fun _ => Ok tt)
           (fun _ s => Ok s) (fun _ _ => Ok tt) (Ok []) (fun p => Ok p)
           (fun _ t => t) false None "**/*.py" false ["dag.py"; "missing.py"]).
  exists "missing.py". split; [ simpl; auto | reflexivity ].
Defined.


(** * Further properties of the import-from rule *)

(** The loop, whatever the node: it applies the rule of the last matching
    entry. *)
Lemma fold_run_alias_apply (l : list ImportAlias) (o : option string)
      (node : ImportFrom) :
  fold_left From.run_alias l (apply_rule o node)
  = apply_rule
      (fold_left (fun acc a => match alias_rule a with
                               | Some t => Some t
                               | None => acc
                               end) l o) node.
Proof.
  revert o. induction l as [ | a l IH]; intros o; simpl.
  - reflexivity.
  - rewrite run_alias_rule.
    destruct (alias_rule a) as [t | ]; [ | apply IH ].
    rewrite <- (IH (Some t)). destruct o; reflexivity.
Qed.

Lemma fold_run_alias_last_rule (l : list ImportAlias) (node : ImportFrom) :
  fold_left From.run_alias l node = apply_rule (last_rule l) node.
Proof. exact (fold_run_alias_apply l None node). Qed.

Lemma last_rule_target (l : list ImportAlias) (t : string) :
  last_rule l = Some t -> In t target_names /\ l <> [].
Proof.
  intros H. split.
  - destruct (fold_run_alias_cases l (plain_from tasks_shell ImportStar))
      as [[E _] | (t' & Ht' & E)];
      rewrite fold_run_alias_last_rule, H in E; simpl in E.
    + discriminate.
    + inversion E. assumption.
  - intros ->. discriminate.
Qed.

Lemma alias_rule_none_iff (a : ImportAlias) :
  alias_rule a = None <-> value_in (ia_name a) source_names = false.
Proof.
  unfold alias_rule, value_in, source_names.
  destruct (ia_name a) as [n | v at' d lp rp]; simpl; [ | tauto ].
  destruct (name_value n =? "DAG"), (name_value n =? "BashOperator"),
           (name_value n =? "DummyOperator"),
           (name_value n =? "SparkSqlOperator"),
           (name_value n =? "PythonOperator"); simpl; split; congruence.
Qed.

Lemma last_rule_no_match (l : list ImportAlias) :
  (forall b, In b l -> alias_rule b = None) -> last_rule l = None.
Proof.
  unfold last_rule. induction l as [ | a l IH]; simpl; intros H.
  - reflexivity.
  - rewrite (H a (or_introl eq_refl)). apply IH. intros b Hb. apply H. auto.
Qed.

(** What a successful [run] is made of. *)
Lemma run_cases (node r : ImportFrom) :
  From.run node = Ok r ->
  exists node1 l,
    From.run_module node = Ok node1
    /\ names node = Aliases l
    /\ r = apply_rule (last_rule l) node1.
Proof.
  unfold From.run.
  destruct (From.run_module node) as [node1 | e] eqn:Hm; simpl;
    [ | discriminate ].
  unfold From.run_names. rewrite (run_module_names _ _ Hm).
  destruct (names node) as [l | ]; [ | discriminate ].
  rewrite fold_run_alias_last_rule. intros H. inversion H.
  exists node1, l. auto.
Qed.

(** X1. Whatever [run] rewrites, it keeps the statement's own layout: the
    relative dots, the parentheses, the semicolon and the three
    whitespaces of the output are those of the input. *)
Theorem From_run_keeps_layout (node r : ImportFrom) :
  From.run node = Ok r ->
  relative r = relative node
  /\ lpar r = lpar node /\ rpar r = rpar node
  /\ semicolon r = semicolon node
  /\ whitespace_after_from r = whitespace_after_from node
  /\ whitespace_before_import r = whitespace_before_import node
  /\ whitespace_after_import r = whitespace_after_import node.
Proof.
  intros H. destruct (run_cases _ _ H) as (node1 & l & Hm & _ & ->).
  destruct (run_module_cases _ _ Hm) as [-> | (t & _ & ->)];
    destruct (last_rule l); simpl; repeat split.
Qed.

Lemma From_run_keeps_layout_witness :
  let node :=
    mkImportFrom (Some (dotted "airflow" []))
      (Aliases (plain_aliases ["DAG"])) [mkDot "" " "]
      (Some (mkLeftParen " ")) (Some (mkRightParen " "))
      (Given (mkSemicolon "" " ")) "  " "  " "" in
  exists r,
    From.run node = Ok r
    /\ codegen_ImportFrom node = "from  . airflow  import( DAG ); "
    /\ codegen_ImportFrom r
       = "from  . pydolphinscheduler.core.process_definition  import( ProcessDefinition ); "
    /\ relative r = [mkDot "" " "]
    /\ whitespace_after_import r = "".
Proof.
  cbv zeta. eexists. split; [ reflexivity | ].
  split; [ reflexivity | ]. split; [ reflexivity | ].
  destruct (From_run_keeps_layout _ _
              (eq_refl : From.run
                           (mkImportFrom (Some (dotted "airflow" []))
                              (Aliases (plain_aliases ["DAG"])) [mkDot "" " "]
                              (Some (mkLeftParen " "))
                              (Some (mkRightParen " "))
                              (Given (mkSemicolon "" " ")) "  " "  " "")
                         = Ok _))
    as (Hrel & _ & _ & _ & _ & _ & Hws).
  split; [ exact Hrel | exact Hws ].
Defined.

(** X2. The output of [run] has the input's module reference or one of the
    four the rule writes, and the input's names or exactly one bare name
    out of the four the rule writes. *)
Theorem From_run_output_shape (node r : ImportFrom) :
  From.run node = Ok r ->
  (module r = module node \/ exists t, In t target_modules /\ module r = Some t)
  /\ (names r = names node
      \/ exists t, In t target_names
                   /\ names r = Aliases [ImportAlias_ (Name t)]).
Proof.
  intros H. destruct (run_cases _ _ H) as (node1 & l & Hm & Hn & ->).
  split.
  - destruct (run_module_cases _ _ Hm) as [-> | (t & Ht & ->)].
    + left. destruct (last_rule l); reflexivity.
    + right. exists t. split; [ exact Ht | ].
      destruct (last_rule l); reflexivity.
  - destruct (last_rule l) as [t | ] eqn:El; simpl.
    + right. exists t. split; [ | reflexivity ].
      apply (last_rule_target l t El).
    + left. apply (run_module_names _ _ Hm).
Qed.

Lemma From_run_output_shape_witness :
  exists r,
    From.run (plain_from (dotted "airflow" ["models"])
                         (Aliases (plain_aliases ["DAG"; "Variable"])))
    = Ok r
    /\ (module r = Some (dotted "airflow" ["models"])
        \/ exists t, In t target_modules /\ module r = Some t)
    /\ (names r = Aliases (plain_aliases ["DAG"; "Variable"])
        \/ exists t, In t target_names
                     /\ names r = Aliases [ImportAlias_ (Name t)]).
Proof.
  eexists. split; [ reflexivity | ].
  exact (From_run_output_shape
           (plain_from (dotted "airflow" ["models"])
                       (Aliases (plain_aliases ["DAG"; "Variable"])))
           _ eq_refl).
Defined.

(** The module phase returns whenever the module reference is not the
    two-component shape with a [Name] prefix. *)
Lemma run_module_returns (node : ImportFrom) :
  name_prefix_trap node = false ->
  exists node1, From.run_module node = Ok node1.
Proof.
  unfold name_prefix_trap, From.run_module, source_modules, str_in.
  destruct (module node) as [[n | [p | v' a' d' lp' rp'] a d lp rp] | ];
    simpl.
  - intros _. destruct (name_value n =? "airflow"); eexists; reflexivity.
  - destruct (name_value a =? "bash"), (name_value a =? "dummy_operator"),
             (name_value a =? "dummy"),
             (name_value a =? "spark_sql_operator"),
             (name_value a =? "python_operator"); simpl;
      intros H; try discriminate H; eexists; reflexivity.
  - intros _.
    destruct (name_value a =? "bash"), (name_value a =? "dummy_operator"),
             (name_value a =? "dummy"),
             (name_value a =? "spark_sql_operator"),
             (name_value a =? "python_operator"),
             (name_value a' =? "operators"); simpl; eexists; reflexivity.
  - intros _. eexists. reflexivity.
Qed.

Lemma run_module_trap (node : ImportFrom) :
  name_prefix_trap node = true ->
  From.run_module node = Raise (AttributeError "Name" "attr").
Proof.
  unfold name_prefix_trap, From.run_module, source_modules, str_in.
  destruct (module node) as [[n | [p | v' a' d' lp' rp'] a d lp rp] | ];
    simpl; try discriminate.
  destruct (name_value a =? "bash"), (name_value a =? "dummy_operator"),
           (name_value a =? "dummy"),
           (name_value a =? "spark_sql_operator"),
           (name_value a =? "python_operator"); simpl;
    intros H; try discriminate H; reflexivity.
Qed.

(** X3. When [run] raises and when it returns.  It raises [AttributeError]
    exactly on a module reference [p.x] with [p] a bare name and [x] one of
    [bash], [dummy_operator], [dummy], [spark_sql_operator],
    [python_operator]; otherwise it raises [TypeError] exactly on a star
    import; otherwise it returns. *)
Theorem From_run_raises_iff (node : ImportFrom) :
  (From.run node = Raise (AttributeError "Name" "attr")
   <-> name_prefix_trap node = true)
  /\ (From.run node = Raise (TypeError "'ImportStar' object is not iterable")
      <-> name_prefix_trap node = false /\ names node = ImportStar)
  /\ ((exists r, From.run node = Ok r)
      <-> name_prefix_trap node = false /\ exists l, names node = Aliases l).
Proof.
  unfold From.run.
  destruct (name_prefix_trap node) eqn:Et.
  - rewrite (run_module_trap node Et). simpl.
    (split; [ | split ]); (split; intros H); try reflexivity;
      repeat match goal with
             | H : _ /\ _ |- _ => destruct H
             | H : exists _, _ |- _ => destruct H
             end; discriminate.
  - destruct (run_module_returns node Et) as [node1 Hm]. rewrite Hm. simpl.
    unfold From.run_names. rewrite (run_module_names _ _ Hm).
    destruct (names node) as [l | ];
      (split; [ | split ]); (split; intros H);
      repeat match goal with
             | H : _ /\ _ |- _ => destruct H
             | H : exists _, _ |- _ => destruct H
             end; try discriminate; try reflexivity;
      repeat split; eexists; reflexivity.
Qed.

(** X4. The module rules look at the last two components only: whatever
    stands in front of [operators.bash], [operators.dummy_operator] or
    [operators.dummy] (and whatever the relative dots), the module
    reference becomes [pydolphinscheduler.tasks.shell]; likewise
    [operators.spark_sql_operator] becomes [pydolphinscheduler.tasks.sql]
    and [operators.python_operator] [pydolphinscheduler.tasks.python]. *)
Theorem From_run_module_any_prefix
        (node : ImportFrom) (v' : Expr) (a' a : NameNode) (d' d : Dot)
        (lp' lp : list LeftParen) (rp' rp : list RightParen) :
  module node = Some (EAttribute (EAttribute v' a' d' lp' rp') a d lp rp) ->
  name_value a' = "operators" ->
  (In (name_value a) ["bash"; "dummy_operator"; "dummy"] ->
   From.run node = From.run_names (with_changes_module node tasks_shell))
  /\ (name_value a = "spark_sql_operator" ->
      From.run node = From.run_names (with_changes_module node tasks_sql))
  /\ (name_value a = "python_operator" ->
      From.run node = From.run_names (with_changes_module node tasks_python)).
Proof.
  intros Hm Ho. unfold From.run, From.run_module. rewrite Hm. simpl.
  rewrite Ho. repeat split.
  - simpl. intros [<- | [<- | [<- | []]]]; reflexivity.
  - intros ->. reflexivity.
  - intros ->. reflexivity.
Qed.

Lemma From_run_module_any_prefix_witness :
  From.run
    (mkImportFrom (Some (dotted "vendor" ["plugins"; "operators"; "dummy"]))
       (Aliases (plain_aliases ["helper"])) [mkDot "" ""; mkDot "" ""]
       None None DEFAULT " " " " " ")
  = Ok (mkImportFrom (Some tasks_shell)
          (Aliases (plain_aliases ["helper"])) [mkDot "" ""; mkDot "" ""]
          None None DEFAULT " " " " " ").
Proof.
  rewrite (proj1 (From_run_module_any_prefix
                    (mkImportFrom
                       (Some (dotted "vendor" ["plugins"; "operators"; "dummy"]))
                       (Aliases (plain_aliases ["helper"]))
                       [mkDot "" ""; mkDot "" ""] None None DEFAULT " " " " " ")
                    (dotted "vendor" ["plugins"]) (Name "operators")
                    (Name "dummy") (mkDot "" "") (mkDot "" "") [] [] [] []
                    eq_refl eq_refl)
                 (or_intror (or_intror (or_introl eq_refl)))).
  reflexivity.
Defined.

(** X5. A module reference that no module rule fires on, and that is not
    the shape [run] raises on, is left alone: [run] is then the loop over
    the names.  This covers a missing module ([from . import x]), a bare
    name other than [airflow], a last component the rules do not look for,
    and a prefix that does not end in [operators]. *)
Theorem From_run_module_unmatched (node : ImportFrom) :
  name_prefix_trap node = false ->
  module_matches node = false ->
  From.run_module node = Ok node /\ From.run node = From.run_names node.
Proof.
  intros Ht Hm.
  assert (H : From.run_module node = Ok node).
  { revert Ht Hm.
    unfold name_prefix_trap, module_matches, From.run_module, source_modules,
      str_in.
    destruct (module node) as [[n | [p | v' a' d' lp' rp'] a d lp rp] | ];
      simpl.
    - intros _ ->. reflexivity.
    - destruct (name_value a =? "bash"), (name_value a =? "dummy_operator"),
               (name_value a =? "dummy"),
               (name_value a =? "spark_sql_operator"),
               (name_value a =? "python_operator"); simpl;
        intros H; try discriminate H; reflexivity.
    - intros _.
      destruct (name_value a =? "bash"), (name_value a =? "dummy_operator"),
               (name_value a =? "dummy"),
               (name_value a =? "spark_sql_operator"),
               (name_value a =? "python_operator"),
               (name_value a' =? "operators"); simpl;
        intros H; try discriminate H; reflexivity.
    - reflexivity. }
  split; [ exact H | ]. unfold From.run. rewrite H. reflexivity.
Qed.

Lemma From_run_module_unmatched_witness :
  From.run
    (mkImportFrom None (Aliases (plain_aliases ["DAG"])) [mkDot "" ""]
       None None DEFAULT " " " " " ")
  = Ok (mkImportFrom None (Aliases (plain_aliases ["ProcessDefinition"]))
          [mkDot "" ""] None None DEFAULT " " " " " ")
  /\ From.run_module
       (plain_from (dotted "airflow" ["sensors"; "bash"])
                   (Aliases (plain_aliases ["BashSensor"])))
     = Ok (plain_from (dotted "airflow" ["sensors"; "bash"])
                      (Aliases (plain_aliases ["BashSensor"]))).
Proof.
  split.
  - rewrite (proj2 (From_run_module_unmatched
                      (mkImportFrom None (Aliases (plain_aliases ["DAG"]))
                         [mkDot "" ""] None None DEFAULT " " " " " ")
                      eq_refl eq_refl)).
    reflexivity.
  - exact (proj1 (From_run_module_unmatched
                    (plain_from (dotted "airflow" ["sensors"; "bash"])
                                (Aliases (plain_aliases ["BashSensor"])))
                    eq_refl eq_refl)).
Defined.

(** X6. When no entry of the names is [DAG], [BashOperator],
    [DummyOperator], [SparkSqlOperator] or [PythonOperator], the loop
    changes nothing: [run] is the module phase alone, and the names of its
    output are the input's, entry for entry. *)
Theorem From_run_names_unmatched (node : ImportFrom) (l : list ImportAlias) :
  names node = Aliases l ->
  (forall b, In b l -> value_in (ia_name b) source_names = false) ->
  From.run node = From.run_module node
  /\ forall r, From.run node = Ok r -> names r = Aliases l.
Proof.
  intros Hn Hl.
  assert (Hnone : last_rule l = None).
  { apply last_rule_no_match. intros b Hb. apply alias_rule_none_iff. auto. }
  assert (Hrun : From.run node = From.run_module node).
  { unfold From.run.
    destruct (From.run_module node) as [node1 | e] eqn:Hm; simpl;
      [ | reflexivity ].
    unfold From.run_names. rewrite (run_module_names _ _ Hm), Hn.
    rewrite fold_run_alias_last_rule, Hnone. reflexivity. }
  split; [ exact Hrun | ].
  intros r Hr. rewrite Hrun in Hr.
  rewrite (run_module_names _ _ Hr). exact Hn.
Qed.

Lemma From_run_names_unmatched_witness :
  From.run
    (plain_from (dotted "airflow" ["operators"; "python_operator"])
                (Aliases (plain_aliases ["BranchPythonOperator"; "dag"])))
  = Ok (plain_from tasks_python
                   (Aliases (plain_aliases ["BranchPythonOperator"; "dag"]))).
Proof.
  assert (H : forall b,
             In b (plain_aliases ["BranchPythonOperator"; "dag"]) ->
             value_in (ia_name b) source_names = false).
  { simpl. intros b [<- | [<- | []]]; reflexivity. }
  rewrite (proj1 (From_run_names_unmatched
                    (plain_from
                       (dotted "airflow" ["operators"; "python_operator"])
                       (Aliases (plain_aliases ["BranchPythonOperator"; "dag"])))
                    (plain_aliases ["BranchPythonOperator"; "dag"])
                    eq_refl H)).
  reflexivity.
Defined.

(** X7. On a statement that lists its names, the two phases of [run] can
    be taken in either order: rewriting the names first and the module
    reference second gives the same result, and the same exception when
    the module phase raises. *)
Theorem From_run_phases_commute (node : ImportFrom) (l : list ImportAlias) :
  names node = Aliases l ->
  From.run node = names_then_module node.
Proof.
  intros Hn. unfold names_then_module, From.run, From.run_names at 2.
  rewrite Hn. simpl. rewrite fold_run_alias_last_rule.
  assert (Hswap : From.run_module (apply_rule (last_rule l) node)
                  = (node1 <- From.run_module node ;;
                     Ok (apply_rule (last_rule l) node1))).
  { destruct (last_rule l) as [t | ]; simpl.
    - apply run_module_with_changes_names.
    - destruct (From.run_module node); reflexivity. }
  rewrite Hswap.
  destruct (From.run_module node) as [node1 | e] eqn:Hm; simpl;
    [ | reflexivity ].
  unfold From.run_names. rewrite (run_module_names _ _ Hm), Hn.
  rewrite fold_run_alias_last_rule. reflexivity.
Qed.

Lemma From_run_phases_commute_witness :
  names_then_module
    (plain_from (dotted "airflow" ["operators"; "spark_sql_operator"])
                (Aliases (plain_aliases ["SparkSqlOperator"])))
  = Ok (plain_from tasks_sql (Aliases (plain_aliases ["Sql"])))
  /\ names_then_module
       (plain_from (dotted "lib" ["dummy"])
                   (Aliases (plain_aliases ["DummyOperator"])))
     = Raise (AttributeError "Name" "attr").
Proof.
  split.
  - rewrite <- (From_run_phases_commute
                  (plain_from
                     (dotted "airflow" ["operators"; "spark_sql_operator"])
                     (Aliases (plain_aliases ["SparkSqlOperator"])))
                  (plain_aliases ["SparkSqlOperator"]) eq_refl).
    reflexivity.
  - rewrite <- (From_run_phases_commute
                  (plain_from (dotted "lib" ["dummy"])
                              (Aliases (plain_aliases ["DummyOperator"])))
                  (plain_aliases ["DummyOperator"]) eq_refl).
    reflexivity.
Defined.

(** The module reference the module phase returns depends on the module
    reference it was given, and on nothing else in the node. *)
Lemma run_module_reads_module (n n' n1 n1' : ImportFrom) :
  From.run_module n = Ok n1 ->
  From.run_module n' = Ok n1' ->
  module n = module n' ->
  module n1 = module n1'.
Proof.
  unfold From.run_module, str_in. intros H H' E. rewrite <- E in H'.
  destruct (module n) as [[x | v a d lp rp] | ] eqn:En; simpl in *.
  - destruct (name_value x =? "airflow"); inversion H; inversion H';
      subst; simpl; congruence.
  - destruct (name_value a =? "bash"), (name_value a =? "dummy_operator"),
             (name_value a =? "dummy"),
             (name_value a =? "spark_sql_operator"),
             (name_value a =? "python_operator"); simpl in *;
      destruct v as [p | v' a' d' lp' rp']; simpl in *;
        try discriminate;
        try (destruct (name_value a' =? "operators"); simpl in * );
        inversion H; inversion H'; subst; simpl; congruence.
  - inversion H; inversion H'. subst. congruence.
Qed.

(** X8. The two rewrites are independent of each other: the names of the
    output depend on the names of the input only, and the module reference
    of the output on the module reference of the input only. *)
Theorem From_run_rewrites_independent (n n' r r' : ImportFrom) :
  From.run n = Ok r ->
  From.run n' = Ok r' ->
  (names n = names n' -> names r = names r')
  /\ (module n = module n' -> module r = module r').
Proof.
  intros H H'.
  destruct (run_cases _ _ H) as (n1 & l & Hm & Hn & ->).
  destruct (run_cases _ _ H') as (n1' & l' & Hm' & Hn' & ->).
  split; intros E.
  - assert (l = l') by congruence. subst l'.
    destruct (last_rule l); simpl; [ reflexivity | ].
    rewrite (run_module_names _ _ Hm), (run_module_names _ _ Hm'). exact E.
  - pose proof (run_module_reads_module _ _ _ _ Hm Hm' E) as Em.
    destruct (last_rule l), (last_rule l'); simpl; exact Em.
Qed.

Lemma From_run_rewrites_independent_witness :
  exists r r',
    From.run (plain_from (dotted "airflow" [])
                         (Aliases (plain_aliases ["DAG"; "settings"]))) = Ok r
    /\ From.run (plain_from (dotted "models" ["dag"])
                            (Aliases (plain_aliases ["DAG"; "settings"])))
       = Ok r'
    /\ names r = names r'
    /\ names r = Aliases (plain_aliases ["ProcessDefinition"])
    /\ module r' = Some (dotted "models" ["dag"]).
Proof.
  eexists. eexists. split; [ reflexivity | ]. split; [ reflexivity | ].
  split; [ | split; reflexivity ].
  exact (proj1 (From_run_rewrites_independent
                  (plain_from (dotted "airflow" [])
                              (Aliases (plain_aliases ["DAG"; "settings"])))
                  (plain_from (dotted "models" ["dag"])
                              (Aliases (plain_aliases ["DAG"; "settings"])))
                  _ _ eq_refl eq_refl) eq_refl).
Defined.

(** X9. [run] never makes the list of names longer and never makes a
    non-empty list empty: the output lists the same names, or a single
    one. *)
Theorem From_run_names_length (node r : ImportFrom) (l : list ImportAlias) :
  From.run node = Ok r ->
  names node = Aliases l ->
  exists l',
    names r = Aliases l'
    /\ length l' <= length l
    /\ (l <> [] -> l' <> [])
    /\ (l' = l \/ length l' = 1).
Proof.
  intros H Hn. destruct (run_cases _ _ H) as (n1 & l0 & Hm & Hn0 & ->).
  assert (l0 = l) by congruence. subst l0.
  destruct (last_rule l) as [t | ] eqn:El; simpl.
  - exists [ImportAlias_ (Name t)]. split; [ reflexivity | ].
    destruct (last_rule_target l t El) as [_ Hne].
    destruct l as [ | a l]; [ contradiction | ]. simpl.
    repeat split.
    + apply le_n_S, le_0_n.
    + discriminate.
    + right. reflexivity.
  - exists l. rewrite (run_module_names _ _ Hm). auto.
Qed.

Lemma From_run_names_length_witness :
  exists r l',
    From.run (plain_from (dotted "airflow" ["operators"])
                (Aliases (plain_aliases
                            ["BashOperator"; "PythonOperator"; "Other"])))
    = Ok r
    /\ names r = Aliases l'
    /\ length l' <= 3.
Proof.
  destruct (From_run_names_length
              (plain_from (dotted "airflow" ["operators"])
                 (Aliases (plain_aliases
                             ["BashOperator"; "PythonOperator"; "Other"])))
              _ (plain_aliases ["BashOperator"; "PythonOperator"; "Other"])
              eq_refl eq_refl) as (l' & Hl' & Hlen & _).
  eexists. exists l'. split; [ reflexivity | ]. split; assumption.
Defined.

(** * Further properties of the command line entry point *)

Lemma appends_ret {A : Type} (a : A) : appends (ret a).
Proof. intros t. unfold ret. simpl. rewrite app_nil_r. reflexivity. Qed.

Lemma appends_lift {A : Type} (r : result A) : appends (lift r).
Proof. intros t. unfold lift. simpl. rewrite app_nil_r. reflexivity. Qed.

Lemma appends_emit (ev : event) : appends (emit ev).
Proof. intros t. reflexivity. Qed.

Lemma appends_bind {A B : Type} (c : io A) (k : A -> io B) :
  appends c -> (forall a, appends (k a)) -> appends (io_bind c k).
Proof.
  intros Hc Hk t. unfold io_bind. rewrite (Hc t).
  destruct (c []) as [tc [a | e]]; simpl.
  - rewrite (Hk a (t ++ tc)%list), (Hk a tc). simpl.
    rewrite app_assoc. reflexivity.
  - reflexivity.
Qed.

Lemma appends_when (b : bool) (c : io unit) : appends c -> appends (when b c).
Proof. destruct b; simpl; [ auto | intros _; apply appends_ret ]. Qed.

Ltac appends_steps :=
  repeat first
         [ apply appends_ret | apply appends_lift | apply appends_emit
         | apply appends_when
         | apply appends_bind; [ | intros ? ] ].

Section Subcommands.

Variable path_exists : Path -> bool.
Variable path_is_file : Path -> bool.
Variable path_glob : Path -> string -> result (list Path).
Variable Config : Type.
Variable Runner : Type.
Variable Config_init : list Path -> option bool -> result Config.
Variable Runner_init : Config -> result Runner.
Variable with_str : Runner -> string -> result string.
Variable with_files : Runner -> list Path -> result unit.
Variable build_in_rules : result (list Path).
Variable relative_to_path_rule : Path -> result string.
Variable unified_diff : string -> string -> string.

Lemma print_rules_appends (rules : list Path) :
  appends (print_rules relative_to_path_rule rules).
Proof.
  induction rules as [ | rule rest IH]; simpl.
  - apply appends_ret.
  - appends_steps. exact IH.
Qed.

(** [main] adds to the trace and never reads it. *)
Lemma main_appends (args : Namespace) :
  appends (main path_exists path_is_file path_glob Config Runner Config_init
                Runner_init with_str with_files build_in_rules
                relative_to_path_rule unified_diff args).
Proof.
  unfold main. apply appends_bind; [ appends_steps | intros _ ].
  apply appends_bind; [ appends_steps | intros _ ].
  destruct args as [v r diff stdin | v r f i srcs | [ | ] | ]; cbv zeta;
    appends_steps.
  apply print_rules_appends.
Qed.

(** The loop of lines 162-170 when every source exists and every glob
    returns: the sources' files in the order of the sources. *)
Lemma collect_files_flat_map (filter : string) (glob_of : Path -> list Path)
      (sources : list Path) :
  (forall p, In p sources -> path_exists p = true) ->
  (forall p, In p sources -> path_is_file p = false ->
             path_glob p filter = Ok (glob_of p)) ->
  forall convert_files,
    collect_files path_exists path_is_file path_glob filter sources
      convert_files
    = Ok (convert_files
            ++ flat_map (files_of_source path_is_file glob_of) sources)%list.
Proof.
  induction sources as [ | p rest IH]; intros Hex Hglob acc; simpl.
  - rewrite app_nil_r. reflexivity.
  - rewrite (Hex p (or_introl eq_refl)). simpl.
    assert (IH' : forall acc',
               collect_files path_exists path_is_file path_glob filter rest
                 acc'
               = Ok (acc' ++ flat_map (files_of_source path_is_file glob_of)
                                      rest)%list).
    { apply IH; intros; [ apply Hex | apply Hglob ]; simpl; auto. }
    unfold files_of_source at 1. destruct (path_is_file p) eqn:Ef.
    + rewrite IH', <- app_assoc. reflexivity.
    + rewrite (Hglob p (or_introl eq_refl) Ef). simpl.
      rewrite IH', <- app_assoc. reflexivity.
Qed.

(** X10. [convert] when nothing fails before the runner: [main] builds one
    [Config] from the custom rule (if any) and the in-place flag, one
    [Runner], and calls [with_files] once, on the files of all sources in
    the order of the sources: a file source itself, a directory source's
    glob matches.  Nothing is removed: a file reached twice is listed
    twice.  The result of [main] is that of [with_files]. *)
Theorem main_convert_runs_once
        (verbose : bool) (rules : option Path) (filter : string)
        (inplace : bool) (sources : list Path)
        (glob_of : Path -> list Path) (config : Config) (runner : Runner) :
  (forall p, In p sources -> path_exists p = true) ->
  (forall p, In p sources -> path_is_file p = false ->
             path_glob p filter = Ok (glob_of p)) ->
  Config_init (match rules with Some r => [r] | None => [] end)
              (Some inplace) = Ok config ->
  Runner_init config = Ok runner ->
  let files := flat_map (files_of_source path_is_file glob_of) sources in
  exists trace,
    main path_exists path_is_file path_glob Config Runner Config_init
         Runner_init with_str with_files build_in_rules
         relative_to_path_rule unified_diff
         (args_convert verbose rules filter inplace sources) []
    = (trace, with_files runner files)
    /\ conversion_events trace
       = [new_Config (match rules with Some r => [r] | None => [] end)
                     (Some inplace);
          new_Runner; runner_with_files files].
Proof.
  intros Hex Hglob Hc Hr files.
  pose proof (collect_files_flat_map filter glob_of sources Hex Hglob [])
    as Hcol. simpl in Hcol. fold files in Hcol.
  exists ((if verbose then [setLevel_DEBUG] else [])
            ++ [logger_debug
                  "Finish parse airphin arguments, current args is %s.";
                new_Config (match rules with Some r => [r] | None => [] end)
                           (Some inplace);
                new_Runner; runner_with_files files])%list.
  split.
  - unfold main, io_bind, when, emit, lift, ret. simpl.
    destruct verbose; simpl; rewrite Hcol; simpl;
      destruct rules; simpl in *; rewrite Hc, Hr; simpl;
        destruct (with_files runner files); reflexivity.
  - destruct verbose; reflexivity.
Qed.

(** X11. When the loop over the sources returns, every source exists, the
    files collected before are still in front, every file source is among
    the collected files, and so is every match of every directory source. *)
Theorem collect_files_returns
        (filter : string) (sources convert_files collected : list Path) :
  collect_files path_exists path_is_file path_glob filter sources
    convert_files = Ok collected ->
  (forall p, In p sources -> path_exists p = true)
  /\ (exists added, collected = (convert_files ++ added)%list)
  /\ (forall p, In p sources -> path_is_file p = true -> In p collected)
  /\ (forall p, In p sources -> path_is_file p = false ->
                exists files, path_glob p filter = Ok files
                              /\ forall f, In f files -> In f collected).
Proof.
  revert convert_files.
  induction sources as [ | q rest IH]; intros acc; simpl.
  - intros H. inversion H. subst collected. repeat split.
    + intros p [].
    + exists []. rewrite app_nil_r. reflexivity.
    + intros p [].
    + intros p [].
  - destruct (path_exists q) eqn:Eq; simpl; [ | discriminate ].
    destruct (path_is_file q) eqn:Ef.
    + intros H. destruct (IH _ H) as (Hex & (added & Hadd) & Hf & Hd).
      repeat split.
      * intros p [<- | Hp]; auto.
      * exists (q :: added). rewrite Hadd, <- app_assoc. reflexivity.
      * intros p [<- | Hp] Hpf; [ | auto ].
        rewrite Hadd. apply in_or_app. left. apply in_or_app. right.
        left. reflexivity.
      * intros p [<- | Hp] Hpf; [ congruence | auto ].
    + destruct (path_glob q filter) as [files | e] eqn:Eg; simpl;
        [ | discriminate ].
      intros H. destruct (IH _ H) as (Hex & (added & Hadd) & Hf & Hd).
      repeat split.
      * intros p [<- | Hp]; auto.
      * exists (files ++ added)%list. rewrite Hadd, <- app_assoc.
        reflexivity.
      * intros p [<- | Hp] Hpf; [ congruence | auto ].
      * intros p [<- | Hp] Hpf; [ | auto ].
        exists files. split; [ exact Eg | ].
        intros f Hin. rewrite Hadd. apply in_or_app. left.
        apply in_or_app. right. exact Hin.
Qed.

(** X12. [convert] when building the configuration or the runner fails:
    the exception leaves [main], and [with_files] is never called.  When
    [Config] raises, no [Runner] is built either. *)
Theorem main_convert_setup_fails
        (verbose : bool) (rules : option Path) (filter : string)
        (inplace : bool) (sources files : list Path) (e : exn) :
  collect_files path_exists path_is_file path_glob filter sources []
  = Ok files ->
  let customs := match rules with Some r => [r] | None => [] end in
  let run :=
    main path_exists path_is_file path_glob Config Runner Config_init
         Runner_init with_str with_files build_in_rules
         relative_to_path_rule unified_diff
         (args_convert verbose rules filter inplace sources) [] in
  (Config_init customs (Some inplace) = Raise e ->
   snd run = Raise e
   /\ conversion_events (fst run) = [new_Config customs (Some inplace)])
  /\ (forall config,
         Config_init customs (Some inplace) = Ok config ->
         Runner_init config = Raise e ->
         snd run = Raise e
         /\ conversion_events (fst run)
            = [new_Config customs (Some inplace); new_Runner]).
Proof.
  intros Hcol customs run. subst run customs.
  unfold main, io_bind, when, emit, lift, ret. simpl.
  split.
  - intros Hc. destruct verbose; simpl; rewrite Hcol; simpl;
      destruct rules; simpl in *; rewrite Hc; simpl; split; reflexivity.
  - intros config Hc Hr. destruct verbose; simpl; rewrite Hcol; simpl;
      destruct rules; simpl in *; rewrite Hc, Hr; simpl; split; reflexivity.
Qed.

(** X13. [test]: [main] builds one [Config] from the custom rule (if any),
    one [Runner], and calls [with_str] once on the input.  When that
    returns, [main] returns, having logged one record at level INFO, or two
    with [--diff]; when it raises, the exception leaves [main] and nothing
    has been logged at level INFO. *)
Theorem main_test_runs_once
        (verbose : bool) (rules : option Path) (diff : bool) (stdin : string)
        (config : Config) (runner : Runner) :
  let customs := match rules with Some r => [r] | None => [] end in
  let run :=
    main path_exists path_is_file path_glob Config Runner Config_init
         Runner_init with_str with_files build_in_rules
         relative_to_path_rule unified_diff
         (args_test verbose rules diff stdin) [] in
  Config_init customs None = Ok config ->
  Runner_init config = Ok runner ->
  conversion_events (fst run)
  = [new_Config customs None; new_Runner; runner_with_str stdin]
  /\ (forall result, with_str runner stdin = Ok result ->
         snd run = Ok tt
         /\ info_records (fst run) = if diff then 2 else 1)
  /\ (forall e, with_str runner stdin = Raise e ->
         snd run = Raise e /\ info_records (fst run) = 0).
Proof.
  intros customs run Hc Hr. subst run customs.
  unfold main, io_bind, when, emit, lift, ret. simpl.
  destruct rules; simpl in *; rewrite Hc, Hr; simpl;
    destruct (with_str runner stdin) as [result | e]; simpl;
      (split; [ destruct verbose, diff; reflexivity | ]);
      (split; [ intros x Hx | intros x Hx ]); try discriminate;
        inversion Hx; subst; destruct verbose, diff; split; reflexivity.
Qed.

(** X14. [--verbose] changes the log level and nothing else: [convert] and
    [test] do the same things and end the same way with and without it. *)
Theorem main_verbose_only_sets_level
        (rules : option Path) (filter : string) (inplace : bool)
        (sources : list Path) (diff : bool) (stdin : string) :
  let run := main path_exists path_is_file path_glob Config Runner
                  Config_init Runner_init with_str with_files build_in_rules
                  relative_to_path_rule unified_diff in
  run (args_convert true rules filter inplace sources) []
  = (setLevel_DEBUG
       :: fst (run (args_convert false rules filter inplace sources) []),
     snd (run (args_convert false rules filter inplace sources) []))
  /\ run (args_test true rules diff stdin) []
     = (setLevel_DEBUG :: fst (run (args_test false rules diff stdin) []),
        snd (run (args_test false rules diff stdin) [])).
Proof.
  intros run. split.
  - pose proof (main_appends (args_convert false rules filter inplace sources)
                             [setLevel_DEBUG]) as H.
    simpl in H. unfold run. rewrite <- H. reflexivity.
  - pose proof (main_appends (args_test false rules diff stdin)
                             [setLevel_DEBUG]) as H.
    simpl in H. unfold run. rewrite <- H. reflexivity.
Qed.




Lemma print_rules_no_conversion (rules : list Path) (t : list event) :
  conversion_events (fst (print_rules relative_to_path_rule rules t))
  = conversion_events t.
Proof.
  revert t. induction rules as [ | rule rest IH]; intros t; simpl.
  - reflexivity.
  - unfold io_bind, lift, emit.
    destruct (relative_to_path_rule rule) as [line | e]; simpl.
    + rewrite IH. unfold conversion_events. rewrite filter_app. simpl.
      apply app_nil_r.
    + reflexivity.
Qed.

(** X16. The [rule] subcommand, with or without [--show] and whatever the
    loader does, builds no [Config] and no [Runner] and converts nothing;
    without [--show], and without any subcommand, [main] prints nothing
    and returns. *)
Theorem main_rule_converts_nothing (show : bool) :
  let run := main path_exists path_is_file path_glob Config Runner
                  Config_init Runner_init with_str with_files build_in_rules
                  relative_to_path_rule unified_diff in
  conversion_events (fst (run (args_rule show) [])) = []
  /\ snd (run (args_rule false) []) = Ok tt
  /\ printed (fst (run (args_rule false) [])) = []
  /\ snd (run args_none []) = Ok tt
  /\ printed (fst (run args_none [])) = [].
Proof.
  intros run. subst run. repeat split.
  unfold main, io_bind, when, emit, lift, ret. simpl.
  destruct show; [ | reflexivity ].
  destruct build_in_rules as [rules | e]; [ | reflexivity ].
  simpl. rewrite print_rules_no_conversion. reflexivity.
Qed.

End Subcommands.

Lemma main_convert_runs_once_witness :
  exists trace,
    main demo_exists only_dag_py demo_glob unit unit
         (fun _ _ => Ok tt) (fun _ => Ok tt) (fun _ s => Ok s)
         (fun _ _ => Ok tt) (Ok []) (fun p => Ok p) (fun _ t => t)
         (args_convert true (Some "my_rules.yaml") "**/*.py" true
                       ["dag.py"; "dags"; "dag.py"]) []
    = (trace, Ok tt)
    /\ conversion_events trace
       = [new_Config ["my_rules.yaml"] (Some true); new_Runner;
          runner_with_files ["dag.py"; "dags/a.py"; "dags/b.py"; "dag.py"]].
Proof.
  assert (Hex : forall p, In p ["dag.py"; "dags"; "dag.py"] ->
                          demo_exists p = true).
  { simpl. intros p [<- | [<- | [<- | []]]]; reflexivity. }
  destruct (main_convert_runs_once
              demo_exists only_dag_py demo_glob unit unit
              (fun _ _ => Ok tt) (fun _ => Ok tt) (fun _ s => Ok s)
              (fun _ _ => Ok tt) (Ok []) (fun p => Ok p) (fun _ t => t)
              true (Some "my_rules.yaml") "**/*.py" true
              ["dag.py"; "dags"; "dag.py"] demo_glob_of tt tt
              Hex (fun _ _ _ => eq_refl) eq_refl eq_refl)
    as (trace & Hrun & Hev).
  exists trace. split; [ exact Hrun | exact Hev ].
Defined.

Lemma collect_files_returns_witness :
  collect_files demo_exists only_dag_py demo_glob "*.py" ["dags"; "dag.py"]
                ["first.py"]
  = Ok ["first.py"; "dags/a.py"; "dags/b.py"; "dag.py"]
  /\ demo_exists "dags" = true
  /\ In "dag.py" ["first.py"; "dags/a.py"; "dags/b.py"; "dag.py"].
Proof.
  split; [ reflexivity | ].
  destruct (collect_files_returns
              demo_exists only_dag_py demo_glob "*.py" ["dags"; "dag.py"]
              ["first.py"] ["first.py"; "dags/a.py"; "dags/b.py"; "dag.py"]
              eq_refl) as (Hex & _ & Hfile & _).
  split.
  - apply Hex. simpl. auto.
  - apply Hfile; [ simpl; auto | reflexivity ].
Defined.

Lemma main_convert_setup_fails_witness :
  let run :=
    main demo_exists only_dag_py demo_glob unit unit
         (fun _ _ => Raise (OtherError "no such rule file"))
         (fun _ => Ok tt) (fun _ s => Ok s) (fun _ _ => Ok tt) (Ok [])
         (fun p => Ok p) (fun _ t => t)
         (args_convert false (Some "missing.yaml") "**/*.py" false ["dags"])
         [] in
  snd run = Raise (OtherError "no such rule file")
  /\ conversion_events (fst run) = [new_Config ["missing.yaml"] (Some false)].
Proof.
  exact (proj1 (main_convert_setup_fails
                  demo_exists only_dag_py demo_glob unit unit
                  (fun _ _ => Raise (OtherError "no such rule file"))
                  (fun _ => Ok tt) (fun _ s => Ok s) (fun _ _ => Ok tt)
                  (Ok []) (fun p => Ok p) (fun _ t => t)
                  false (Some "missing.yaml") "**/*.py" false ["dags"]
                  ["dags/a.py"; "dags/b.py"]
                  (OtherError "no such rule file") eq_refl)
               eq_refl).
Defined.

Lemma main_test_runs_once_witness :
  let run :=
    main demo_exists only_dag_py demo_glob unit unit
         (fun _ _ => Ok tt) (fun _ => Ok tt)
         (fun _ s => Raise (OtherError "parser syntax error"))
         (fun _ _ => Ok tt) (Ok []) (fun p => Ok p) (fun _ t => t)
         (args_test false None true "from airflow import") [] in
  conversion_events (fst run)
  = [new_Config [] None; new_Runner;
     runner_with_str "from airflow import"]
  /\ snd run = Raise (OtherError "parser syntax error")
  /\ info_records (fst run) = 0.
Proof.
  destruct (main_test_runs_once
              demo_exists only_dag_py demo_glob unit unit
              (fun _ _ => Ok tt) (fun _ => Ok tt)
              (fun _ s => Raise (OtherError "parser syntax error"))
              (fun _ _ => Ok tt) (Ok []) (fun p => Ok p) (fun _ t => t)
              false None true "from airflow import" tt tt eq_refl eq_refl)
    as (Hev & _ & Hraise).
  split; [ exact Hev | ].
  exact (Hraise (OtherError "parser syntax error") eq_refl).
Defined.

